(** * Status popups of the drawing frames (common/status_popup.cpp)

    A shallow embedding of [STATUS_POPUP], [STATUS_TEXT_POPUP] and
    [STATUS_MIN_MAX_POPUP].  Every member function becomes a function on a
    record holding the widget state that the member function reads or writes.
    Doubles are IEEE binary64 values ([spec_float]), so that NaN, the two
    zeros and the infinities are part of the model. *)

From Stdlib Require Import ZArith List Bool String Lia SpecFloat.
Import ListNotations.
Local Open Scope Z_scope.

(** ** C++ [double] and its comparison operators *)

Module Double.

Definition double : Type := spec_float.

(** [x < y], [x <= y], [x > y], [x >= y] and [x == y] of C++: every one of
    them is false as soon as an operand is a NaN. *)
Definition lt (x y : double) : bool :=
  match SFcompare x y with Some Lt => true | _ => false end.

Definition le (x y : double) : bool :=
  match SFcompare x y with Some Lt | Some Eq => true | _ => false end.

Definition gt (x y : double) : bool :=
  match SFcompare x y with Some Gt => true | _ => false end.

Definition ge (x y : double) : bool :=
  match SFcompare x y with Some Gt | Some Eq => true | _ => false end.

Definition eq (x y : double) : bool :=
  match SFcompare x y with Some Eq => true | _ => false end.

(** The literals of the source file, as binary64 values. *)
Definition d0_0 : double := S754_zero false.                         (* 0.0 *)
Definition d1_0 : double := S754_finite false 4503599627370496 (-52). (* 1.0 *)
Definition d0_5 : double := S754_finite false 4503599627370496 (-53). (* 0.5 *)
Definition d0_7 : double := S754_finite false 6305039478318694 (-53). (* 0.7 = 0x1.6666666666666p-1 *)
Definition d0_3 : double := S754_finite false 5404319552844595 (-54). (* 0.3 = 0x1.3333333333333p-2 *)

(** Conversion of an [int] argument to [double], as in [FromHSL( 0, ... )]. *)
Definition of_int (z : Z) : double := binary_normalize 53 1024 z 0 false.

End Double.

Import Double.

(** ** Toolkit values *)

Definition wxString : Type := string.

Record wxPoint : Type := { pt_x : Z; pt_y : Z }.

Record VECTOR2I : Type := { vec_x : Z; vec_y : Z }.

Record wxSize : Type := { size_w : Z; size_h : Z }.

(** [wxColour]: four channels of one byte each. *)
Record wxColour : Type :=
  { col_r : Z; col_g : Z; col_b : Z; col_a : Z }.

(** [KIGFX::COLOR4D]: four [double] channels. *)
Record COLOR4D : Type :=
  { c4_r : double; c4_g : double; c4_b : double; c4_a : double }.

Inductive wxSystemColour : Type :=
| wxSYS_COLOUR_WINDOW
| wxSYS_COLOUR_BTNFACE
| wxSYS_COLOUR_BTNTEXT.

Inductive wxEventType : Type :=
| wxEVT_CHAR_HOOK
| wxEVT_CHAR
| wxEVT_KEY_DOWN
| wxEVT_KEY_UP.

Record wxKeyEvent : Type :=
  { ev_type : wxEventType; ev_keycode : Z }.

Definition SetEventType (t : wxEventType) (e : wxKeyEvent) : wxKeyEvent :=
  {| ev_type := t; ev_keycode := ev_keycode e |}.

(** Windows that can be the parent of a popup, with their dynamic type: an
    [EDA_DRAW_FRAME] (or a class derived from it) owns a canvas; any other
    window only has its event handler. *)
Record EDA_DRAW_FRAME : Type :=
  { frame_canvas : nat; frame_handler : nat }.

Inductive wxWindow : Type :=
| DrawFrameWindow (f : EDA_DRAW_FRAME)
| PlainWindow (handler : nat).

Definition GetEventHandler (w : wxWindow) : nat :=
  match w with
  | DrawFrameWindow f => frame_handler f
  | PlainWindow h => h
  end.

Definition GetCanvas (f : EDA_DRAW_FRAME) : nat := frame_canvas f.

(** [dynamic_cast<EDA_DRAW_FRAME*>( w )]: null for a null pointer and for a
    window of another class. *)
Definition dynamic_cast_EDA_DRAW_FRAME (w : option wxWindow) : option EDA_DRAW_FRAME :=
  match w with
  | Some (DrawFrameWindow f) => Some f
  | _ => None
  end.

(** Where a forwarded key event ends up. *)
Inductive dispatch : Type :=
| Canvas_OnEvent (canvas : nat) (e : wxKeyEvent)
| Handler_ProcessEvent (handler : nat) (e : wxKeyEvent).

(** ** The expiry timer *)

(** Modelled from the spec: [wxTimer] and its [StartOnce] are toolkit code.
    The spec describes the expiry timer as a single-shot countdown, armed on
    request, whose re-arming cancels the pending callback and restarts it,
    and whose firing hides the popup.  The notifications that the event loop
    still owes the timer are kept as a list of countdowns, each tagged with
    the number of the arming that created it. *)
Record wxTimer : Type :=
  { pending : list (nat * Z);   (* (arming number, milliseconds left) *)
    armings : nat }.            (* how many times the timer was started *)

Definition timer_idle : wxTimer := {| pending := []; armings := 0 |}.

Definition Stop (t : wxTimer) : wxTimer :=
  {| pending := []; armings := armings t |}.

(** Modelled from the spec: a timer that is started while it runs is stopped
    first, then armed for [aMsecs]. *)
Definition StartOnce (aMsecs : Z) (t : wxTimer) : wxTimer :=
  let t := Stop t in
  {| pending := (S (armings t), aMsecs) :: pending t;
     armings := S (armings t) |}.

(** [dt] milliseconds pass without a notification being delivered. *)
Definition countdown (dt : Z) (t : wxTimer) : wxTimer :=
  {| pending := map (fun e => (fst e, snd e - dt)) (pending t);
     armings := armings t |}.

(** The one-shot notification of arming [id] is delivered and forgotten. *)
Definition notified (id : nat) (t : wxTimer) : wxTimer :=
  {| pending := filter (fun e => negb (Nat.eqb (fst e) id)) (pending t);
     armings := armings t |}.

(** ** Collaborators outside this file

    The owning frame, the colour library and the toolkit's settings and layout
    engine are used by the popups but implemented elsewhere; the popups are
    verified for every implementation of them. *)
Class Collaborators : Type :=
  { (* wxSystemSettings::GetColour *)
    GetColour : wxSystemColour -> wxColour;
    (* the background colour of a window on which none was set *)
    DefaultBackground : wxColour;
    (* the foreground colour of a control on which none was set *)
    DefaultForeground : wxColour;
    (* the position and the size of a window just created *)
    wxDefaultPosition : wxPoint;
    wxDefaultSize : wxSize;
    (* the translation macro _( ... ) *)
    translate : string -> wxString;
    (* EDA_DRAW_FRAME::MessageTextFromValue( aValue, aAddUnitLabel ) and the
       default value of its second argument *)
    MessageTextFromValue : double -> bool -> wxString;
    aAddUnitLabel_default : bool;
    (* COLOR4D(): the colour a default-constructed COLOR4D holds *)
    COLOR4D_default : COLOR4D;
    (* COLOR4D( const wxColour& ) *)
    COLOR4D_of_wxColour : wxColour -> COLOR4D;
    (* COLOR4D::ToHSL( h, s, l ): the three output arguments *)
    ToHSL : COLOR4D -> double * double * double;
    (* COLOR4D::FromHSL( h, s, l ), on the colour it is called on *)
    FromHSL : COLOR4D -> double -> double -> double -> COLOR4D;
    (* COLOR4D::ToColour *)
    ToColour : COLOR4D -> wxColour;
    (* ToWxPoint of math/vector2wx.h *)
    ToWxPoint : VECTOR2I -> wxPoint;
    (* wxSizer::Fit: the size the panel takes for the given label texts *)
    sizer_Fit : list wxString -> wxSize }.

(** ** STATUS_POPUP *)

Record wxPanel : Type :=
  { panel_background : wxColour;
    panel_foreground : wxColour;
    panel_size : wxSize }.

Record STATUS_POPUP : Type :=
  { parent : option wxWindow;     (* GetParent() *)
    shown : bool;                 (* IsShown() *)
    raised : bool;                (* on top of the z-order since Raise() *)
    position : wxPoint;           (* GetPosition() *)
    clientSize : wxSize;          (* GetClientSize() *)
    background : wxColour;        (* GetBackgroundColour() *)
    m_panel : wxPanel;
    m_expireTimer : wxTimer }.

(** Toolkit primitives on the popup window. *)
Definition Show (b : bool) (p : STATUS_POPUP) : STATUS_POPUP :=
  {| parent := parent p; shown := b; raised := raised p; position := position p;
     clientSize := clientSize p; background := background p; m_panel := m_panel p;
     m_expireTimer := m_expireTimer p |}.

Definition Hide (p : STATUS_POPUP) : STATUS_POPUP := Show false p.

Definition Raise (p : STATUS_POPUP) : STATUS_POPUP :=
  {| parent := parent p; shown := shown p; raised := true; position := position p;
     clientSize := clientSize p; background := background p; m_panel := m_panel p;
     m_expireTimer := m_expireTimer p |}.

Definition SetPosition (pt : wxPoint) (p : STATUS_POPUP) : STATUS_POPUP :=
  {| parent := parent p; shown := shown p; raised := raised p; position := pt;
     clientSize := clientSize p; background := background p; m_panel := m_panel p;
     m_expireTimer := m_expireTimer p |}.

Definition SetClientSize (sz : wxSize) (p : STATUS_POPUP) : STATUS_POPUP :=
  {| parent := parent p; shown := shown p; raised := raised p; position := position p;
     clientSize := sz; background := background p; m_panel := m_panel p;
     m_expireTimer := m_expireTimer p |}.

Definition SetBackgroundColour (c : wxColour) (p : STATUS_POPUP) : STATUS_POPUP :=
  {| parent := parent p; shown := shown p; raised := raised p; position := position p;
     clientSize := clientSize p; background := c; m_panel := m_panel p;
     m_expireTimer := m_expireTimer p |}.

Definition GetBackgroundColour (p : STATUS_POPUP) : wxColour := background p.

Definition with_panel (f : wxPanel -> wxPanel) (p : STATUS_POPUP) : STATUS_POPUP :=
  {| parent := parent p; shown := shown p; raised := raised p; position := position p;
     clientSize := clientSize p; background := background p; m_panel := f (m_panel p);
     m_expireTimer := m_expireTimer p |}.

Definition with_timer (f : wxTimer -> wxTimer) (p : STATUS_POPUP) : STATUS_POPUP :=
  {| parent := parent p; shown := shown p; raised := raised p; position := position p;
     clientSize := clientSize p; background := background p; m_panel := m_panel p;
     m_expireTimer := f (m_expireTimer p) |}.

Definition panel_SetBackgroundColour (c : wxColour) (pn : wxPanel) : wxPanel :=
  {| panel_background := c; panel_foreground := panel_foreground pn;
     panel_size := panel_size pn |}.

Definition panel_SetForegroundColour (c : wxColour) (pn : wxPanel) : wxPanel :=
  {| panel_background := panel_background pn; panel_foreground := c;
     panel_size := panel_size pn |}.

Definition panel_SetSize (sz : wxSize) (pn : wxPanel) : wxPanel :=
  {| panel_background := panel_background pn; panel_foreground := panel_foreground pn;
     panel_size := sz |}.

Section Popups.

Context `{Collaborators}.

(** [STATUS_POPUP::STATUS_POPUP( aParent )]: a popup window is created
    hidden; the panel takes the window colour of the system. *)
Definition new_STATUS_POPUP (aParent : option wxWindow) : STATUS_POPUP :=
  {| parent := aParent;
     shown := false;
     raised := false;
     position := wxDefaultPosition;
     clientSize := wxDefaultSize;
     background := DefaultBackground;
     m_panel := panel_SetBackgroundColour (GetColour wxSYS_COLOUR_WINDOW)
                  {| panel_background := DefaultBackground;
                     panel_foreground := DefaultForeground;
                     panel_size := wxDefaultSize |};
     m_expireTimer := timer_idle |}.

(** [STATUS_POPUP::onCharHook]: [None] stands for the dereference of a null
    parent pointer. *)
Definition onCharHook (aEvent : wxKeyEvent) (p : STATUS_POPUP) : option dispatch :=
  let aEvent := SetEventType wxEVT_CHAR aEvent in
  let frame := dynamic_cast_EDA_DRAW_FRAME (parent p) in
  match frame with
  | Some frame => Some (Canvas_OnEvent (GetCanvas frame) aEvent)
  | None =>
      match parent p with
      | Some w => Some (Handler_ProcessEvent (GetEventHandler w) aEvent)
      | None => None
      end
  end.

(** [STATUS_POPUP::Popup] *)
Definition Popup (p : STATUS_POPUP) : STATUS_POPUP :=
  Raise (Show true p).

(** [STATUS_POPUP::Expire] *)
Definition Expire (aMsecs : Z) (p : STATUS_POPUP) : STATUS_POPUP :=
  with_timer (StartOnce aMsecs) p.

(** [STATUS_POPUP::PopupFor] *)
Definition PopupFor (aMsecs : Z) (p : STATUS_POPUP) : STATUS_POPUP :=
  let p := Popup p in
  Expire aMsecs p.

(** [STATUS_POPUP::Move( const VECTOR2I& )] *)
Definition Move_VECTOR2I (aWhere : VECTOR2I) (p : STATUS_POPUP) : STATUS_POPUP :=
  SetPosition (ToWxPoint aWhere) p.

(** [STATUS_POPUP::Move( const wxPoint& )] *)
Definition Move_wxPoint (aWhere : wxPoint) (p : STATUS_POPUP) : STATUS_POPUP :=
  SetPosition aWhere p.

(** [STATUS_POPUP::updateSize]: the sizer fits the panel to the texts it
    lays out, and the window takes the panel's size as its client size. *)
Definition updateSize (texts : list wxString) (p : STATUS_POPUP) : STATUS_POPUP :=
  let p := with_panel (panel_SetSize (sizer_Fit texts)) p in
  SetClientSize (panel_size (m_panel p)) p.

(** [STATUS_POPUP::onExpire] *)
Definition onExpire (p : STATUS_POPUP) : STATUS_POPUP :=
  Hide p.

End Popups.

(** ** Static texts and the two popups built from them *)

Record wxStaticText : Type :=
  { label : wxString;
    foreground : wxColour }.

Definition SetLabel (s : wxString) (t : wxStaticText) : wxStaticText :=
  {| label := s; foreground := foreground t |}.

Definition SetForegroundColour (c : wxColour) (t : wxStaticText) : wxStaticText :=
  {| label := label t; foreground := c |}.

Record STATUS_TEXT_POPUP : Type :=
  { text_base : STATUS_POPUP;
    m_statusLine : wxStaticText }.

Record STATUS_MIN_MAX_POPUP : Type :=
  { base : STATUS_POPUP;
    m_min : double;
    m_max : double;
    m_icon : bool;                  (* m_icon->IsShown() *)
    m_currentLabel : wxStaticText;
    m_currentText : wxStaticText;
    m_minText : wxStaticText;
    m_maxText : wxStaticText }.

Section DerivedPopups.

Context `{Collaborators}.

Definition new_wxStaticText (s : wxString) : wxStaticText :=
  {| label := s; foreground := DefaultForeground |}.

(** [STATUS_TEXT_POPUP::STATUS_TEXT_POPUP] *)
Definition new_STATUS_TEXT_POPUP (aParent : option wxWindow) : STATUS_TEXT_POPUP :=
  let b := new_STATUS_POPUP aParent in
  let b := SetBackgroundColour (GetColour wxSYS_COLOUR_BTNFACE) b in
  let b := with_panel (panel_SetBackgroundColour (GetColour wxSYS_COLOUR_BTNFACE)) b in
  let b := with_panel (panel_SetForegroundColour (GetColour wxSYS_COLOUR_BTNTEXT)) b in
  {| text_base := b; m_statusLine := new_wxStaticText EmptyString |}.

(** [STATUS_TEXT_POPUP::SetText] *)
Definition SetText (aText : wxString) (p : STATUS_TEXT_POPUP) : STATUS_TEXT_POPUP :=
  let line := SetLabel aText (m_statusLine p) in
  {| text_base := updateSize [label line] (text_base p);
     m_statusLine := line |}.

(** [STATUS_TEXT_POPUP::SetTextColor] *)
Definition SetTextColor (aColor : wxColour) (p : STATUS_TEXT_POPUP) : STATUS_TEXT_POPUP :=
  {| text_base := text_base p;
     m_statusLine := SetForegroundColour aColor (m_statusLine p) |}.

(** [STATUS_MIN_MAX_POPUP::STATUS_MIN_MAX_POPUP]: the parent is the frame;
    the captions "min" and "max" are never changed afterwards and are not
    part of the state. *)
Definition new_STATUS_MIN_MAX_POPUP (aFrame : EDA_DRAW_FRAME) : STATUS_MIN_MAX_POPUP :=
  {| base := new_STATUS_POPUP (Some (DrawFrameWindow aFrame));
     m_min := d0_0;
     m_max := d0_0;
     m_icon := true;
     m_currentLabel := new_wxStaticText (translate "current");
     m_currentText := new_wxStaticText EmptyString;
     m_minText := new_wxStaticText EmptyString;
     m_maxText := new_wxStaticText EmptyString |}.

(** The texts the top sizer lays out, in the order of the constructor. *)
Definition laid_out (p : STATUS_MIN_MAX_POPUP) : list wxString :=
  [label (m_currentLabel p); label (m_currentText p);
   translate "min"; label (m_minText p);
   translate "max"; label (m_maxText p)].

(** [STATUS_MIN_MAX_POPUP::SetMinMax] *)
Definition SetMinMax (aMin aMax : double) (p : STATUS_MIN_MAX_POPUP)
  : STATUS_MIN_MAX_POPUP :=
  {| base := base p;
     m_min := aMin;
     m_max := aMax;
     m_icon := m_icon p;
     m_currentLabel := m_currentLabel p;
     m_currentText := m_currentText p;
     m_minText := SetLabel (MessageTextFromValue aMin false) (m_minText p);
     m_maxText := SetLabel (MessageTextFromValue aMax false) (m_maxText p) |}.

(** [STATUS_MIN_MAX_POPUP::SetCurrent].  [Layout], [Refresh] and [Update]
    act on the toolkit's layout and paint state only. *)
Definition SetCurrent (aCurrent : double) (aLabel : wxString)
    (p : STATUS_MIN_MAX_POPUP) : STATUS_MIN_MAX_POPUP :=
  let currentLabel := SetLabel aLabel (m_currentLabel p) in
  let currentText :=
    SetLabel (MessageTextFromValue aCurrent aAddUnitLabel_default) (m_currentText p) in
  let icon := ge aCurrent (m_min p) && le aCurrent (m_max p) in
  let normal := GetColour wxSYS_COLOUR_BTNTEXT in
  let bg := COLOR4D_of_wxColour (GetBackgroundColour (base p)) in
  let red := COLOR4D_default in
  let '(bg_h, bg_s, bg_l) := ToHSL bg in
  let red := FromHSL red (of_int 0) d1_0 (if lt bg_l d0_5 then d0_7 else d0_3) in
  let minText :=
    SetForegroundColour (if lt aCurrent (m_min p) then ToColour red else normal)
      (m_minText p) in
  let maxText :=
    SetForegroundColour (if gt aCurrent (m_max p) then ToColour red else normal)
      (m_maxText p) in
  let p' :=
    {| base := base p; m_min := m_min p; m_max := m_max p; m_icon := icon;
       m_currentLabel := currentLabel; m_currentText := currentText;
       m_minText := minText; m_maxText := maxText |} in
  {| base := updateSize (laid_out p') (base p');
     m_min := m_min p'; m_max := m_max p'; m_icon := m_icon p';
     m_currentLabel := m_currentLabel p'; m_currentText := m_currentText p';
     m_minText := m_minText p'; m_maxText := m_maxText p' |}.

(** The expiry handler is inherited: on a min/max popup it runs on the
    base part. *)
Definition onExpire_min_max (p : STATUS_MIN_MAX_POPUP) : STATUS_MIN_MAX_POPUP :=
  {| base := onExpire (base p);
     m_min := m_min p; m_max := m_max p; m_icon := m_icon p;
     m_currentLabel := m_currentLabel p; m_currentText := m_currentText p;
     m_minText := m_minText p; m_maxText := m_maxText p |}.

End DerivedPopups.

(** ** The event loop around a popup

    Between two calls of its member functions a popup only changes when the
    event loop delivers a notification of the expiry timer.  A notification is
    delivered once its countdown has run out, and time does not pass beyond
    the end of a countdown without the delivery. *)

Inductive event : Type :=
| Call_Popup
| Call_PopupFor (aMsecs : Z)
| Call_Expire (aMsecs : Z)
| Call_Move_VECTOR2I (aWhere : VECTOR2I)
| Call_Move_wxPoint (aWhere : wxPoint)
| Call_Hide
| Elapse (dt : Z)
| TimerNotify (id : nat).

Section EventLoop.

Context `{Collaborators}.

Inductive step : STATUS_POPUP -> event -> STATUS_POPUP -> Prop :=
| step_Popup p : step p Call_Popup (Popup p)
| step_PopupFor p ms : step p (Call_PopupFor ms) (PopupFor ms p)
| step_Expire p ms : step p (Call_Expire ms) (Expire ms p)
| step_Move_VECTOR2I p v : step p (Call_Move_VECTOR2I v) (Move_VECTOR2I v p)
| step_Move_wxPoint p pt : step p (Call_Move_wxPoint pt) (Move_wxPoint pt p)
| step_Hide p : step p Call_Hide (Hide p)
| step_Elapse p dt :
    0 <= dt ->
    (forall id left, In (id, left) (pending (m_expireTimer p)) -> dt <= left) ->
    step p (Elapse dt) (with_timer (countdown dt) p)
| step_TimerNotify p id left :
    In (id, left) (pending (m_expireTimer p)) ->
    left <= 0 ->
    step p (TimerNotify id) (onExpire (with_timer (notified id) p)).

(** The popups an owner can ever hold: a new one, and what a sequence of
    calls, waits and notifications makes of it. *)
Inductive reachable : STATUS_POPUP -> Prop :=
| reachable_new aParent : reachable (new_STATUS_POPUP aParent)
| reachable_step p e p' : reachable p -> step p e p' -> reachable p'.

(** The warning colour in the words of the specification: hue 0,
    saturation 1.0, and lightness 0.7 on a background of lightness below
    0.5, lightness 0.3 otherwise. *)
Definition warning_colour (bg : wxColour) : wxColour :=
  let bg_l := snd (ToHSL (COLOR4D_of_wxColour bg)) in
  let lightness := if lt bg_l d0_5 then d0_7 else d0_3 in
  ToColour (FromHSL COLOR4D_default d0_0 d1_0 lightness).

Definition normal_colour : wxColour := GetColour wxSYS_COLOUR_BTNTEXT.

End EventLoop.

(** ** Histories of a popup *)

(** The key event that a dispatch carries. *)
Definition dispatched_event (d : dispatch) : wxKeyEvent :=
  match d with
  | Canvas_OnEvent _ e => e
  | Handler_ProcessEvent _ e => e
  end.

(** The calls that start the expiry timer: [Expire] is the only member
    function that calls [StartOnce], and [PopupFor] calls [Expire]. *)
Definition arms (e : event) : bool :=
  match e with
  | Call_Expire _ | Call_PopupFor _ => true
  | _ => false
  end.

(** A min/max popup with another base part. *)
Definition with_base (b : STATUS_POPUP) (p : STATUS_MIN_MAX_POPUP) : STATUS_MIN_MAX_POPUP :=
  {| base := b;
     m_min := m_min p; m_max := m_max p; m_icon := m_icon p;
     m_currentLabel := m_currentLabel p; m_currentText := m_currentText p;
     m_minText := m_minText p; m_maxText := m_maxText p |}.

(** What can happen to a min/max popup: its two setters, and everything that
    can happen to the popup base it inherits from. *)
Inductive min_max_event : Type :=
| Call_SetMinMax (aMin aMax : double)
| Call_SetCurrent (aCurrent : double) (aLabel : wxString)
| On_base (e : event).

(** The call that gives a min/max popup its range. *)
Definition sets_range (e : min_max_event) : bool :=
  match e with
  | Call_SetMinMax _ _ => true
  | _ => false
  end.

(** A text popup with another base part. *)
Definition with_text_base (b : STATUS_POPUP) (p : STATUS_TEXT_POPUP) : STATUS_TEXT_POPUP :=
  {| text_base := b; m_statusLine := m_statusLine p |}.

(** What can happen to a text popup: its two setters, and everything that
    can happen to the popup base it inherits from. *)
Inductive text_event : Type :=
| Call_SetText (aText : wxString)
| Call_SetTextColor (aColor : wxColour)
| On_text_base (e : event).

(** The timer owes at most one notification, that of its latest arming. *)
Definition owes_at_most_latest (t : wxTimer) : Prop :=
  pending t = [] \/ exists left, pending t = [(armings t, left)].

Section Histories.

Context `{Collaborators}.

(** A sequence of steps of a popup. *)
Inductive run : STATUS_POPUP -> list event -> STATUS_POPUP -> Prop :=
| run_nil p : run p [] p
| run_cons p e p' es p'' : step p e p' -> run p' es p'' -> run p (e :: es) p''.

Inductive min_max_step
  : STATUS_MIN_MAX_POPUP -> min_max_event -> STATUS_MIN_MAX_POPUP -> Prop :=
| step_SetMinMax p aMin aMax :
    min_max_step p (Call_SetMinMax aMin aMax) (SetMinMax aMin aMax p)
| step_SetCurrent p aCurrent aLabel :
    min_max_step p (Call_SetCurrent aCurrent aLabel) (SetCurrent aCurrent aLabel p)
| step_base p e b' :
    step (base p) e b' -> min_max_step p (On_base e) (with_base b' p).

(** The min/max popups that the frame [aFrame] can ever hold. *)
Inductive min_max_reachable (aFrame : EDA_DRAW_FRAME) : STATUS_MIN_MAX_POPUP -> Prop :=
| min_max_new : min_max_reachable aFrame (new_STATUS_MIN_MAX_POPUP aFrame)
| min_max_next p e p' :
    min_max_reachable aFrame p -> min_max_step p e p' -> min_max_reachable aFrame p'.

(** A sequence of steps of a min/max popup. *)
Inductive min_max_run
  : STATUS_MIN_MAX_POPUP -> list min_max_event -> STATUS_MIN_MAX_POPUP -> Prop :=
| min_max_run_nil p : min_max_run p [] p
| min_max_run_cons p e p' es p'' :
    min_max_step p e p' -> min_max_run p' es p'' -> min_max_run p (e :: es) p''.

Inductive text_step
  : STATUS_TEXT_POPUP -> text_event -> STATUS_TEXT_POPUP -> Prop :=
| step_SetText p aText :
    text_step p (Call_SetText aText) (SetText aText p)
| step_SetTextColor p aColor :
    text_step p (Call_SetTextColor aColor) (SetTextColor aColor p)
| step_text_base p e b' :
    step (text_base p) e b' -> text_step p (On_text_base e) (with_text_base b' p).

(** The text popups that can ever stand on the window [aParent]. *)
Inductive text_reachable (aParent : option wxWindow) : STATUS_TEXT_POPUP -> Prop :=
| text_new : text_reachable aParent (new_STATUS_TEXT_POPUP aParent)
| text_next p e p' :
    text_reachable aParent p -> text_step p e p' -> text_reachable aParent p'.

(** The popup windows in use: the window of a plain popup, of a text popup
    or of a min/max popup, in any state that its constructor, its member
    functions, the passing of time and the notifications of its timer can
    bring it to. *)
Inductive in_use : STATUS_POPUP -> Prop :=
| in_use_plain p : reachable p -> in_use p
| in_use_text aParent p : text_reachable aParent p -> in_use (text_base p)
| in_use_min_max aFrame p : min_max_reachable aFrame p -> in_use (base p).

End Histories.

(** ** A sample set of collaborators, for the examples

    Texts are not formatted, a colour is converted channel by channel with the
    lightness read from the red channel, and the two reds have the lightness
    written into their red channel. *)

Definition byte_to_double (z : Z) : double :=
  if z <? 128 then S754_zero false else d1_0.

Definition sample_black : wxColour := {| col_r := 0; col_g := 0; col_b := 0; col_a := 255 |}.
Definition sample_white : wxColour := {| col_r := 255; col_g := 255; col_b := 255; col_a := 255 |}.
Definition sample_light_red : wxColour := {| col_r := 255; col_g := 102; col_b := 102; col_a := 255 |}.
Definition sample_dark_red : wxColour := {| col_r := 153; col_g := 0; col_b := 0; col_a := 255 |}.

#[local] Instance sample_collaborators : Collaborators :=
  {| GetColour := fun c =>
       match c with
       | wxSYS_COLOUR_BTNTEXT => sample_black
       | _ => sample_white
       end;
     DefaultBackground := sample_white;
     DefaultForeground := sample_black;
     wxDefaultPosition := {| pt_x := 0; pt_y := 0 |};
     wxDefaultSize := {| size_w := 20; size_h := 20 |};
     translate := fun s => s;
     MessageTextFromValue := fun _ _ => "value"%string;
     aAddUnitLabel_default := true;
     COLOR4D_default := {| c4_r := d0_0; c4_g := d0_0; c4_b := d0_0; c4_a := d1_0 |};
     COLOR4D_of_wxColour := fun c =>
       {| c4_r := byte_to_double (col_r c); c4_g := byte_to_double (col_g c);
          c4_b := byte_to_double (col_b c); c4_a := byte_to_double (col_a c) |};
     ToHSL := fun c => (d0_0, d0_0, c4_r c);
     FromHSL := fun c h s l => {| c4_r := l; c4_g := h; c4_b := h; c4_a := c4_a c |};
     ToColour := fun c => if lt (c4_r c) d0_5 then sample_dark_red else sample_light_red;
     ToWxPoint := fun v => {| pt_x := vec_x v; pt_y := vec_y v |};
     sizer_Fit := fun texts => {| size_w := 10 * Z.of_nat (List.length texts); size_h := 12 |} |}.

(** The doubles 5, 6, 10 and 15 of the examples. *)
Definition d5 : double := S754_finite false 5629499534213120 (-50).
Definition d6 : double := S754_finite false 6755399441055744 (-50).
Definition d10 : double := S754_finite false 5629499534213120 (-49).
Definition d15 : double := S754_finite false 8444249301319680 (-49).

Definition sample_frame : EDA_DRAW_FRAME := {| frame_canvas := 1; frame_handler := 2 |}.

(** A min/max popup with the range [0, 10]. *)
Definition sample_popup : STATUS_MIN_MAX_POPUP :=
  SetMinMax d0_0 d10 (new_STATUS_MIN_MAX_POPUP sample_frame).

Definition sample_event : wxKeyEvent := {| ev_type := wxEVT_CHAR_HOOK; ev_keycode := 27 |}.

(** A popup on a plain window, shown and armed for half a second. *)
Definition sample_armed : STATUS_POPUP :=
  Expire 500 (Popup (new_STATUS_POPUP (Some (PlainWindow 7)))).

(** A min/max popup shown for half a second, then given a current value. *)
Definition sample_shown : STATUS_MIN_MAX_POPUP :=
  SetCurrent d5 "clearance"%string
    (with_base (PopupFor 500 (base sample_popup)) sample_popup).

(** A min/max popup whose range is written the wrong way round: [10, 0]. *)
Definition sample_inverted : STATUS_MIN_MAX_POPUP :=
  SetMinMax d10 d0_0 (new_STATUS_MIN_MAX_POPUP sample_frame).

(** * Properties *)

(** ** Comparisons of doubles *)

Lemma SFcompare_antisym (x y : double) :
  SFcompare y x = option_map CompOpp (SFcompare x y).
Proof.
  destruct x as [sx | sx | | sx mx ex], y as [sy | sy | | sy my ey];
    simpl; try reflexivity;
    try (destruct sx; reflexivity); try (destruct sy; reflexivity);
    try (destruct sx, sy; reflexivity).
  destruct sx, sy; simpl; try reflexivity.
  - rewrite (Z.compare_antisym ex ey).
    destruct (ex ?= ey) eqn:E; simpl; try reflexivity.
    change (Pcompare my mx Eq) with (Pos.compare my mx).
    change (Pcompare mx my Eq) with (Pos.compare mx my).
    rewrite (Pos.compare_antisym mx my). reflexivity.
  - rewrite (Z.compare_antisym ex ey).
    destruct (ex ?= ey) eqn:E; simpl; try reflexivity.
    change (Pcompare my mx Eq) with (Pos.compare my mx).
    change (Pcompare mx my Eq) with (Pos.compare mx my).
    rewrite (Pos.compare_antisym mx my). reflexivity.
Qed.

Lemma ge_le (x y : double) : ge x y = le y x.
Proof.
  unfold ge, le. rewrite (SFcompare_antisym x y).
  destruct (SFcompare x y) as [[ | | ] | ]; reflexivity.
Qed.

Lemma gt_lt (x y : double) : gt x y = lt y x.
Proof.
  unfold gt, lt. rewrite (SFcompare_antisym x y).
  destruct (SFcompare x y) as [[ | | ] | ]; reflexivity.
Qed.

Lemma eq_not_lt (x y : double) : eq x y = true -> lt x y = false.
Proof.
  unfold lt, eq. destruct (SFcompare x y) as [[ | | ] | ]; congruence.
Qed.

Lemma eq_not_gt (x y : double) : eq x y = true -> gt x y = false.
Proof.
  unfold gt, eq. destruct (SFcompare x y) as [[ | | ] | ]; congruence.
Qed.

Lemma le_not_gt (x y : double) : le x y = true -> gt x y = false.
Proof.
  unfold gt, le. destruct (SFcompare x y) as [[ | | ] | ]; congruence.
Qed.

Lemma ge_not_lt (x y : double) : ge x y = true -> lt x y = false.
Proof.
  unfold ge, lt. destruct (SFcompare x y) as [[ | | ] | ]; congruence.
Qed.

(** Between +0.0 and +0.0 lie the two zeros and nothing else. *)
Lemma between_zeros (v : double) : ge v d0_0 && le v d0_0 = eq v d0_0.
Proof.
  unfold ge, le, eq, d0_0.
  destruct v as [s | s | | s m e]; simpl; try reflexivity; destruct s; reflexivity.
Qed.

Lemma of_int_0 : of_int 0 = d0_0.
Proof. reflexivity. Qed.

(** ** The min/max popup *)

Section MinMaxProperties.

Context `{Collaborators}.

Lemma SetCurrent_keeps_bounds (aCurrent : double) (aLabel : wxString)
    (p : STATUS_MIN_MAX_POPUP) :
  m_min (SetCurrent aCurrent aLabel p) = m_min p
  /\ m_max (SetCurrent aCurrent aLabel p) = m_max p.
Proof. unfold SetCurrent. destruct (ToHSL _) as [[bg_h bg_s] bg_l]. split; reflexivity. Qed.

Lemma SetCurrent_icon (aCurrent : double) (aLabel : wxString)
    (p : STATUS_MIN_MAX_POPUP) :
  m_icon (SetCurrent aCurrent aLabel p)
  = ge aCurrent (m_min p) && le aCurrent (m_max p).
Proof. unfold SetCurrent. destruct (ToHSL _) as [[bg_h bg_s] bg_l]. reflexivity. Qed.

Lemma SetCurrent_min_colour (aCurrent : double) (aLabel : wxString)
    (p : STATUS_MIN_MAX_POPUP) :
  foreground (m_minText (SetCurrent aCurrent aLabel p))
  = if lt aCurrent (m_min p)
    then warning_colour (GetBackgroundColour (base p))
    else normal_colour.
Proof.
  unfold SetCurrent, warning_colour, normal_colour.
  destruct (ToHSL _) as [[bg_h bg_s] bg_l]. reflexivity.
Qed.

Lemma SetCurrent_max_colour (aCurrent : double) (aLabel : wxString)
    (p : STATUS_MIN_MAX_POPUP) :
  foreground (m_maxText (SetCurrent aCurrent aLabel p))
  = if gt aCurrent (m_max p)
    then warning_colour (GetBackgroundColour (base p))
    else normal_colour.
Proof.
  unfold SetCurrent, warning_colour, normal_colour.
  destruct (ToHSL _) as [[bg_h bg_s] bg_l]. reflexivity.
Qed.

(** C1: after [SetCurrent( current, label )] the in-range icon is shown if
    and only if [min <= current] and [current <= max], for the bounds the
    popup holds (which [SetCurrent] leaves as they were); both comparisons
    are the inclusive ones of C++ doubles. *)
Theorem SetCurrent_icon_iff_in_range (aCurrent : double) (aLabel : wxString)
    (p : STATUS_MIN_MAX_POPUP) :
  let p' := SetCurrent aCurrent aLabel p in
  (m_min p' = m_min p /\ m_max p' = m_max p)
  /\ (m_icon p' = true <-> (le (m_min p') aCurrent = true /\ le aCurrent (m_max p') = true)).
Proof.
  intros p'. subst p'.
  destruct (SetCurrent_keeps_bounds aCurrent aLabel p) as [Hmin Hmax].
  split; [split; assumption|].
  rewrite Hmin, Hmax, SetCurrent_icon, ge_le.
  apply andb_true_iff.
Qed.

(** C2: after [SetCurrent] the min label has the warning colour when
    [current < min] and the normal colour otherwise, and the max label has
    the warning colour when [current > max] and the normal colour
    otherwise; in particular a label whose bound equals the current value
    has the normal colour, and so have both when the value is in range. *)
Theorem SetCurrent_bound_label_colours (aCurrent : double) (aLabel : wxString)
    (p : STATUS_MIN_MAX_POPUP) :
  let p' := SetCurrent aCurrent aLabel p in
  let warning := warning_colour (GetBackgroundColour (base p)) in
  foreground (m_minText p') = (if lt aCurrent (m_min p) then warning else normal_colour)
  /\ foreground (m_maxText p') = (if gt aCurrent (m_max p) then warning else normal_colour)
  /\ (eq aCurrent (m_min p) = true -> foreground (m_minText p') = normal_colour)
  /\ (eq aCurrent (m_max p) = true -> foreground (m_maxText p') = normal_colour)
  /\ (m_icon p' = true ->
      foreground (m_minText p') = normal_colour
      /\ foreground (m_maxText p') = normal_colour)
  /\ (warning <> normal_colour ->
      (foreground (m_minText p') = warning <-> lt aCurrent (m_min p) = true)
      /\ (foreground (m_maxText p') = warning <-> gt aCurrent (m_max p) = true)).
Proof.
  intros p' warning. subst p' warning.
  rewrite SetCurrent_min_colour, SetCurrent_max_colour.
  split; [reflexivity|]. split; [reflexivity|]. split; [|split; [|split]].
  - intros E. now rewrite (eq_not_lt _ _ E).
  - intros E. now rewrite (eq_not_gt _ _ E).
  - intros Hicon. rewrite SetCurrent_icon in Hicon.
    apply andb_true_iff in Hicon. destruct Hicon as [G L].
    now rewrite (ge_not_lt _ _ G), (le_not_gt _ _ L).
  - intros Hdiff. split.
    + destruct (lt aCurrent (m_min p)); split; congruence.
    + destruct (gt aCurrent (m_max p)); split; congruence.
Qed.

(** C3: the colour that [SetCurrent] gives an out-of-range bound label is
    computed from the popup's background colour: with [bg_l] the lightness
    of the background in HSL, it is the colour of hue 0 and saturation 1.0
    whose lightness is 0.7 when [bg_l < 0.5] and 0.3 otherwise; a background
    of lightness exactly 0.5 gets lightness 0.3. *)
Theorem SetCurrent_warning_colour_contrast (aCurrent : double) (aLabel : wxString)
    (p : STATUS_MIN_MAX_POPUP) :
  let p' := SetCurrent aCurrent aLabel p in
  let bg := GetBackgroundColour (base p) in
  let bg_l := snd (ToHSL (COLOR4D_of_wxColour bg)) in
  let hsl l := ToColour (FromHSL COLOR4D_default d0_0 d1_0 l) in
  (lt aCurrent (m_min p) = true -> foreground (m_minText p') = warning_colour bg)
  /\ (gt aCurrent (m_max p) = true -> foreground (m_maxText p') = warning_colour bg)
  /\ (lt bg_l d0_5 = true -> warning_colour bg = hsl d0_7)
  /\ (lt bg_l d0_5 = false -> warning_colour bg = hsl d0_3)
  /\ (bg_l = d0_5 -> warning_colour bg = hsl d0_3).
Proof.
  intros p' bg bg_l hsl. subst p' bg bg_l hsl.
  rewrite SetCurrent_min_colour, SetCurrent_max_colour.
  unfold warning_colour.
  repeat split; intros E; try rewrite E; reflexivity.
Qed.

(** C9: [SetMinMax( min, max )] stores the two bounds and sets the texts of
    the two bound labels to their formatted values; the icon's visibility,
    the colours of the bound labels and everything else stay as they were,
    so after [SetCurrent] followed by [SetMinMax] they are still what that
    [SetCurrent] made them. *)
Theorem SetMinMax_changes_only_bounds (aMin aMax : double) (p : STATUS_MIN_MAX_POPUP) :
  let p' := SetMinMax aMin aMax p in
  (m_min p' = aMin /\ m_max p' = aMax
   /\ label (m_minText p') = MessageTextFromValue aMin false
   /\ label (m_maxText p') = MessageTextFromValue aMax false)
  /\ (m_icon p' = m_icon p
      /\ foreground (m_minText p') = foreground (m_minText p)
      /\ foreground (m_maxText p') = foreground (m_maxText p)
      /\ m_currentLabel p' = m_currentLabel p
      /\ m_currentText p' = m_currentText p
      /\ base p' = base p)
  /\ (forall aCurrent aLabel q,
         p = SetCurrent aCurrent aLabel q ->
         m_icon p' = (ge aCurrent (m_min q) && le aCurrent (m_max q))
         /\ foreground (m_minText p')
            = (if lt aCurrent (m_min q)
               then warning_colour (GetBackgroundColour (base q)) else normal_colour)
         /\ foreground (m_maxText p')
            = (if gt aCurrent (m_max q)
               then warning_colour (GetBackgroundColour (base q)) else normal_colour)).
Proof.
  intros p'. subst p'. split; [|split].
  - repeat split.
  - repeat split.
  - intros aCurrent aLabel q ->. simpl.
    rewrite SetCurrent_icon, SetCurrent_min_colour, SetCurrent_max_colour.
    repeat split.
Qed.

Lemma min_max_step_keeps_bounds (p p' : STATUS_MIN_MAX_POPUP) (e : min_max_event) :
  min_max_step p e p' -> sets_range e = false ->
  m_min p' = m_min p /\ m_max p' = m_max p.
Proof.
  intros Hstep He.
  destruct Hstep as [p aMin aMax | p aCurrent aLabel | p e b' Hbase].
  - discriminate He.
  - apply SetCurrent_keeps_bounds.
  - split; reflexivity.
Qed.

Lemma min_max_run_keeps_bounds (p p' : STATUS_MIN_MAX_POPUP) (es : list min_max_event) :
  min_max_run p es p' ->
  forallb (fun e => negb (sets_range e)) es = true ->
  m_min p' = m_min p /\ m_max p' = m_max p.
Proof.
  induction 1 as [p | p e p' es p'' Hstep Hrun IH]; intros Hes.
  - split; reflexivity.
  - simpl in Hes. apply andb_true_iff in Hes. destruct Hes as [He Hes].
    apply negb_true_iff in He.
    destruct (min_max_step_keeps_bounds _ _ _ Hstep He) as [E1 E2].
    destruct (IH Hes) as [-> ->]. split; assumption.
Qed.

(** C10: a new min/max popup holds the bounds 0.0 and 0.0, and it still
    holds them after any history without a [SetMinMax] (other calls of
    [SetCurrent], calls of the base class, the passing of time, expiries);
    so a [SetCurrent( v, label )] that comes before any [SetMinMax] shows
    the icon if and only if [v == 0.0], that is, if and only if [v] is one
    of the two zeros. *)
Theorem new_popup_icon_iff_zero (aFrame : EDA_DRAW_FRAME) (es : list min_max_event)
    (p : STATUS_MIN_MAX_POPUP) (v : double) (aLabel : wxString) :
  min_max_run (new_STATUS_MIN_MAX_POPUP aFrame) es p ->
  forallb (fun e => negb (sets_range e)) es = true ->
  (m_min (new_STATUS_MIN_MAX_POPUP aFrame) = d0_0
   /\ m_max (new_STATUS_MIN_MAX_POPUP aFrame) = d0_0)
  /\ (m_min p = d0_0 /\ m_max p = d0_0)
  /\ (m_icon (SetCurrent v aLabel p) = true <-> eq v d0_0 = true)
  /\ (m_icon (SetCurrent v aLabel p) = true <-> exists s, v = S754_zero s).
Proof.
  intros Hrun Hes.
  destruct (min_max_run_keeps_bounds _ _ _ Hrun Hes) as [Hmin Hmax].
  simpl in Hmin, Hmax.
  split; [split; reflexivity|]. split; [split; assumption|].
  rewrite SetCurrent_icon, Hmin, Hmax, between_zeros.
  split; [reflexivity|].
  unfold eq, d0_0.
  destruct v as [s | s | | s m e]; simpl.
  - split; [intros _; now exists s | reflexivity].
  - split; [destruct s; discriminate | intros [s' E]; discriminate].
  - split; [discriminate | intros [s' E]; discriminate].
  - split; [destruct s; discriminate | intros [s' E]; discriminate].
Qed.

End MinMaxProperties.

(** ** The popup base *)

Section PopupProperties.

Context `{Collaborators}.

(** Whatever was called and whenever, the timer owes at most the
    notification of its latest arming. *)
Lemma reachable_pending (p : STATUS_POPUP) :
  reachable p ->
  pending (m_expireTimer p) = []
  \/ exists left, pending (m_expireTimer p) = [(armings (m_expireTimer p), left)].
Proof.
  induction 1 as [aParent | p e p' Hp IH Hstep].
  - left. reflexivity.
  - destruct Hstep as [p | p ms | p ms | p v | p pt | p
                       | p dt Hdt Hdue | p id left Hin Hleft];
      simpl; try exact IH.
    + right. eexists. reflexivity.
    + right. eexists. reflexivity.
    + destruct IH as [-> | [l ->]]; [left; reflexivity | right; eexists; reflexivity].
    + left. destruct IH as [E | [l E]]; rewrite E in *; [reflexivity|].
      destruct Hin as [E' | []]. injection E' as <- <-.
      simpl. now rewrite Nat.eqb_refl.
Qed.

Lemma step_keeps_owes_at_most_latest (p p' : STATUS_POPUP) (e : event) :
  step p e p' ->
  owes_at_most_latest (m_expireTimer p) -> owes_at_most_latest (m_expireTimer p').
Proof.
  unfold owes_at_most_latest. intros Hstep IH.
  destruct Hstep as [p | p ms | p ms | p v | p pt | p
                     | p dt Hdt Hdue | p id left Hin Hleft];
    simpl; try exact IH.
  - right. eexists. reflexivity.
  - right. eexists. reflexivity.
  - destruct IH as [-> | [l ->]]; [left; reflexivity | right; eexists; reflexivity].
  - left. destruct IH as [E | [l E]]; rewrite E in *; [reflexivity|].
    destruct Hin as [E' | []]. injection E' as <- <-.
    simpl. now rewrite Nat.eqb_refl.
Qed.

(** The setters of the two derived popups do not touch the timer. *)
Lemma setters_keep_timer (aText : wxString) (aColor : wxColour)
    (aMin aMax aCurrent : double) (aLabel : wxString)
    (t : STATUS_TEXT_POPUP) (p : STATUS_MIN_MAX_POPUP) :
  m_expireTimer (text_base (SetText aText t)) = m_expireTimer (text_base t)
  /\ m_expireTimer (text_base (SetTextColor aColor t)) = m_expireTimer (text_base t)
  /\ m_expireTimer (base (SetMinMax aMin aMax p)) = m_expireTimer (base p)
  /\ m_expireTimer (base (SetCurrent aCurrent aLabel p)) = m_expireTimer (base p).
Proof.
  repeat split. unfold SetCurrent.
  destruct (ToHSL _) as [[bg_h bg_s] bg_l]. reflexivity.
Qed.

Lemma text_reachable_pending (aParent : option wxWindow) (p : STATUS_TEXT_POPUP) :
  text_reachable aParent p -> owes_at_most_latest (m_expireTimer (text_base p)).
Proof.
  induction 1 as [ | p e p' Hp IH Hstep].
  - left. reflexivity.
  - destruct Hstep as [p aText | p aColor | p e b' Hbase].
    + exact IH.
    + exact IH.
    + exact (step_keeps_owes_at_most_latest _ _ _ Hbase IH).
Qed.

Lemma min_max_reachable_pending (aFrame : EDA_DRAW_FRAME) (p : STATUS_MIN_MAX_POPUP) :
  min_max_reachable aFrame p -> owes_at_most_latest (m_expireTimer (base p)).
Proof.
  induction 1 as [ | p e p' Hp IH Hstep].
  - left. reflexivity.
  - destruct Hstep as [p aMin aMax | p aCurrent aLabel | p e b' Hbase].
    + exact IH.
    + destruct (setters_keep_timer EmptyString (GetColour wxSYS_COLOUR_WINDOW)
                  d0_0 d0_0 aCurrent aLabel (new_STATUS_TEXT_POPUP None) p)
        as (_ & _ & _ & ->).
      exact IH.
    + exact (step_keeps_owes_at_most_latest _ _ _ Hbase IH).
Qed.

Lemma in_use_pending (p : STATUS_POPUP) :
  in_use p -> owes_at_most_latest (m_expireTimer p).
Proof.
  intros [p' Hp | aParent p' Hp | aFrame p' Hp].
  - exact (reachable_pending p' Hp).
  - exact (text_reachable_pending aParent p' Hp).
  - exact (min_max_reachable_pending aFrame p' Hp).
Qed.

Lemma notify_is_latest (p p' : STATUS_POPUP) (id : nat) :
  owes_at_most_latest (m_expireTimer p) -> step p (TimerNotify id) p' ->
  id = armings (m_expireTimer p)
  /\ shown p' = false
  /\ pending (m_expireTimer p') = [].
Proof.
  intros Hp Hstep. inversion Hstep as [ | | | | | | | q i left Hin Hleft]; subst.
  destruct Hp as [E | [l E]]; rewrite E in Hin; [destruct Hin|].
  destruct Hin as [E' | []]. injection E' as <- <-.
  split; [reflexivity|]. split; [reflexivity|].
  simpl. rewrite E. simpl. now rewrite Nat.eqb_refl.
Qed.

(** C4: arming the expiry timer with [Expire], directly or through
    [PopupFor], replaces the expiry that was pending.  For the window of
    every popup in use (plain, text or min/max, in any state that
    constructors, member functions, the passing of time and expiries lead
    to): at most one expiry is pending; after the arming the only pending
    expiry is the new one; the expiry that was pending before is never
    delivered afterwards; and whenever a notification of the timer is
    delivered it is that of the latest arming, it hides the popup, and no
    expiry is pending after it. *)
Theorem Expire_replaces_pending_expiry (p : STATUS_POPUP) :
  in_use p ->
  (List.length (pending (m_expireTimer p)) <= 1)%nat
  /\ (forall aMsecs,
        pending (m_expireTimer (Expire aMsecs p))
        = [(armings (m_expireTimer (Expire aMsecs p)), aMsecs)]
        /\ pending (m_expireTimer (PopupFor aMsecs p))
           = [(armings (m_expireTimer (PopupFor aMsecs p)), aMsecs)])
  /\ (forall aMsecs id left p',
        In (id, left) (pending (m_expireTimer p)) ->
        ~ step (Expire aMsecs p) (TimerNotify id) p'
        /\ ~ step (PopupFor aMsecs p) (TimerNotify id) p')
  /\ (forall id p',
        step p (TimerNotify id) p' ->
        id = armings (m_expireTimer p)
        /\ shown p' = false
        /\ pending (m_expireTimer p') = []).
Proof.
  intros Hp. apply in_use_pending in Hp. split; [|split; [|split]].
  - destruct Hp as [-> | [l ->]]; simpl; lia.
  - intros aMsecs. split; reflexivity.
  - intros aMsecs id left p' Hin.
    assert (Hid : id = armings (m_expireTimer p)).
    { destruct Hp as [E | [l E]]; rewrite E in Hin; [destruct Hin|].
      destruct Hin as [E' | []]. now injection E' as <- <-. }
    split; intros Hstep.
    + apply notify_is_latest in Hstep; [|right; eexists; reflexivity].
      destruct Hstep as [Hnew _]. simpl in Hnew. lia.
    + apply notify_is_latest in Hstep; [|right; eexists; reflexivity].
      destruct Hstep as [Hnew _]. simpl in Hnew. lia.
  - intros id p' Hstep. exact (notify_is_latest p p' id Hp Hstep).
Qed.

(** C5: for every duration [d], [PopupFor( d )] leaves the popup in the
    state that [Popup()] followed by [Expire( d )] leaves it in: shown,
    raised, and with the timer armed for [d]. *)
Theorem PopupFor_is_Popup_then_Expire (d : Z) (p : STATUS_POPUP) :
  PopupFor d p = Expire d (Popup p)
  /\ shown (PopupFor d p) = true
  /\ raised (PopupFor d p) = true
  /\ m_expireTimer (PopupFor d p) = StartOnce d (m_expireTimer p).
Proof. repeat split. Qed.

(** C6: the handler of the expiry timer hides the popup and changes nothing
    else: position, timer, sizes, colours and parent of the popup stay as
    they were, and on a min/max popup so do the bounds, the texts and
    colours of the labels and the visibility of the icon. *)
Theorem onExpire_only_hides (b : STATUS_POPUP) (p : STATUS_MIN_MAX_POPUP) :
  (shown (onExpire b) = false
   /\ position (onExpire b) = position b
   /\ m_expireTimer (onExpire b) = m_expireTimer b
   /\ raised (onExpire b) = raised b
   /\ clientSize (onExpire b) = clientSize b
   /\ background (onExpire b) = background b
   /\ m_panel (onExpire b) = m_panel b
   /\ parent (onExpire b) = parent b)
  /\ (shown (base (onExpire_min_max p)) = false
      /\ base (onExpire_min_max p) = onExpire (base p)
      /\ m_icon (onExpire_min_max p) = m_icon p
      /\ m_currentLabel (onExpire_min_max p) = m_currentLabel p
      /\ m_currentText (onExpire_min_max p) = m_currentText p
      /\ m_minText (onExpire_min_max p) = m_minText p
      /\ m_maxText (onExpire_min_max p) = m_maxText p
      /\ m_min (onExpire_min_max p) = m_min p
      /\ m_max (onExpire_min_max p) = m_max p).
Proof. repeat split. Qed.

(** C7: a key event forwarded from a popup with parent window [w] becomes a
    [wxEVT_CHAR] event; when [w] is a draw frame it is handed to the
    frame's canvas, and when the cast of [w] to a draw frame fails it is
    processed by the event handler of [w]; in both cases the event is
    dispatched. *)
Theorem onCharHook_forwards (w : wxWindow) (aEvent : wxKeyEvent) (p : STATUS_POPUP) :
  parent p = Some w ->
  (forall frame, dynamic_cast_EDA_DRAW_FRAME (Some w) = Some frame ->
     onCharHook aEvent p
     = Some (Canvas_OnEvent (GetCanvas frame) (SetEventType wxEVT_CHAR aEvent)))
  /\ (dynamic_cast_EDA_DRAW_FRAME (Some w) = None ->
      onCharHook aEvent p
      = Some (Handler_ProcessEvent (GetEventHandler w) (SetEventType wxEVT_CHAR aEvent)))
  /\ onCharHook aEvent p <> None.
Proof.
  intros Hparent. unfold onCharHook. rewrite Hparent.
  destruct w as [f | h]; simpl; repeat split; try congruence.
Qed.

(** C8: the two overloads of [Move] agree: moving to a vector puts the
    window where moving to the point made from that vector puts it; a move
    sets the position to the given point and changes nothing else. *)
Theorem Move_overloads_agree (v : VECTOR2I) (pt : wxPoint) (p : STATUS_POPUP) :
  Move_VECTOR2I v p = Move_wxPoint (ToWxPoint v) p
  /\ position (Move_VECTOR2I v p) = ToWxPoint v
  /\ (position (Move_wxPoint pt p) = pt
      /\ shown (Move_wxPoint pt p) = shown p
      /\ raised (Move_wxPoint pt p) = raised p
      /\ m_expireTimer (Move_wxPoint pt p) = m_expireTimer p
      /\ clientSize (Move_wxPoint pt p) = clientSize p
      /\ background (Move_wxPoint pt p) = background p
      /\ m_panel (Move_wxPoint pt p) = m_panel p
      /\ parent (Move_wxPoint pt p) = parent p).
Proof. repeat split. Qed.

End PopupProperties.

(** ** More on the comparisons of doubles *)

Lemma SFcompare_None (x y : double) :
  SFcompare x y = None <-> x = S754_nan \/ y = S754_nan.
Proof.
  destruct x as [sx | sx | | sx mx ex], y as [sy | sy | | sy my ey]; simpl;
    split; intros Hn; try discriminate; try (destruct Hn; discriminate);
    auto.
Qed.

Ltac compare_cases :=
  repeat match goal with
  | |- context [Z.compare ?a ?b] => destruct (Z.compare_spec a b)
  | H : context [Z.compare ?a ?b] |- _ => destruct (Z.compare_spec a b)
  | |- context [Pcompare ?a ?b Eq] =>
      change (Pcompare a b Eq) with (Pos.compare a b); destruct (Pos.compare_spec a b)
  | H : context [Pcompare ?a ?b Eq] |- _ =>
      change (Pcompare a b Eq) with (Pos.compare a b) in H; destruct (Pos.compare_spec a b)
  end.

Ltac by_float_cases a b c :=
  destruct a as [[] | [] | | [] ? ?], b as [[] | [] | | [] ? ?],
    c as [[] | [] | | [] ? ?]; simpl;
    try discriminate; try reflexivity;
    intros; compare_cases; simpl in *; subst;
    try discriminate; try reflexivity; try lia.

Lemma le_trans (a b c : double) :
  le a b = true -> le b c = true -> le a c = true.
Proof. unfold le. by_float_cases a b c. Qed.

Lemma lt_le_trans (a b c : double) :
  lt a b = true -> le b c = true -> lt a c = true.
Proof. unfold le, lt. by_float_cases a b c. Qed.

Lemma lt_le (a b : double) : lt a b = true -> le a b = true.
Proof.
  unfold lt, le. destruct (SFcompare a b) as [[ | | ] | ]; congruence.
Qed.

Lemma lt_irrefl (a : double) : lt a a = false.
Proof.
  unfold lt. pose proof (SFcompare_antisym a a) as E.
  destruct (SFcompare a a) as [[ | | ] | ]; simpl in E; congruence.
Qed.

(** Without a NaN, [>=] is the negation of [<] and [<=] that of [>]. *)
Lemma ge_negb_lt (x y : double) :
  x <> S754_nan -> y <> S754_nan -> ge x y = negb (lt x y).
Proof.
  intros Hx Hy. unfold ge, lt.
  destruct (SFcompare x y) as [[ | | ] | ] eqn:E; try reflexivity.
  apply SFcompare_None in E. tauto.
Qed.

Lemma le_negb_gt (x y : double) :
  x <> S754_nan -> y <> S754_nan -> le x y = negb (gt x y).
Proof.
  intros Hx Hy. unfold le, gt.
  destruct (SFcompare x y) as [[ | | ] | ] eqn:E; try reflexivity.
  apply SFcompare_None in E. tauto.
Qed.

(** ** More on the min/max popup *)

Section MinMaxHistories.

Context `{Collaborators}.

Lemma SetCurrent_window (aCurrent : double) (aLabel : wxString)
    (p : STATUS_MIN_MAX_POPUP) :
  parent (base (SetCurrent aCurrent aLabel p)) = parent (base p)
  /\ background (base (SetCurrent aCurrent aLabel p)) = background (base p).
Proof. unfold SetCurrent. destruct (ToHSL _) as [[bg_h bg_s] bg_l]. split; reflexivity. Qed.

Lemma SetCurrent_bound_texts (aCurrent : double) (aLabel : wxString)
    (p : STATUS_MIN_MAX_POPUP) :
  label (m_minText (SetCurrent aCurrent aLabel p)) = label (m_minText p)
  /\ label (m_maxText (SetCurrent aCurrent aLabel p)) = label (m_maxText p).
Proof. unfold SetCurrent. destruct (ToHSL _) as [[bg_h bg_s] bg_l]. split; reflexivity. Qed.

Lemma step_keeps_window (p p' : STATUS_POPUP) (e : event) :
  step p e p' ->
  parent p' = parent p /\ background p' = background p
  /\ clientSize p' = clientSize p /\ m_panel p' = m_panel p.
Proof. intros Hstep. destruct Hstep; repeat split. Qed.

Lemma min_max_reachable_window (aFrame : EDA_DRAW_FRAME) (p : STATUS_MIN_MAX_POPUP) :
  min_max_reachable aFrame p ->
  parent (base p) = Some (DrawFrameWindow aFrame)
  /\ background (base p) = DefaultBackground.
Proof.
  induction 1 as [ | p e p' Hp [IHparent IHbg] Hstep].
  - split; reflexivity.
  - destruct Hstep as [p aMin aMax | p aCurrent aLabel | p e b' Hbase].
    + split; assumption.
    + destruct (SetCurrent_window aCurrent aLabel p) as [-> ->]. split; assumption.
    + destruct (step_keeps_window _ _ _ Hbase) as (Ep & Eb & _). simpl.
      rewrite Ep, Eb. split; assumption.
Qed.

(** X1: A second [SetCurrent] leaves nothing of the first, and a second
    [SetMinMax] nothing of the first: the popup shows the arguments of the
    latest call of each, whatever was shown before. *)
Theorem setters_overwrite (c1 c2 : double) (l1 l2 : wxString) (a1 b1 a2 b2 : double)
    (p : STATUS_MIN_MAX_POPUP) :
  SetCurrent c2 l2 (SetCurrent c1 l1 p) = SetCurrent c2 l2 p
  /\ SetMinMax a2 b2 (SetMinMax a1 b1 p) = SetMinMax a2 b2 p.
Proof.
  split; [|reflexivity].
  unfold SetCurrent.
  destruct (ToHSL (COLOR4D_of_wxColour (GetBackgroundColour (base p))))
    as [[bg_h bg_s] bg_l] eqn:E.
  simpl. unfold GetBackgroundColour in E. rewrite E. reflexivity.
Qed.

(** X2: When neither the current value nor a bound is a NaN, the icon is hidden
    exactly when [SetCurrent] flags a bound: it is shown if and only if
    neither [current < min] nor [current > max]. *)
Theorem icon_hidden_iff_bound_flagged (aCurrent : double) (aLabel : wxString)
    (p : STATUS_MIN_MAX_POPUP) :
  aCurrent <> S754_nan -> m_min p <> S754_nan -> m_max p <> S754_nan ->
  m_icon (SetCurrent aCurrent aLabel p)
  = negb (lt aCurrent (m_min p) || gt aCurrent (m_max p)).
Proof.
  intros Hc Hmin Hmax.
  rewrite SetCurrent_icon, (ge_negb_lt _ _ Hc Hmin), (le_negb_gt _ _ Hc Hmax).
  symmetry. apply negb_orb.
Qed.

(** X3: A NaN is in no range and outside none: for a current value that is a NaN
    the icon is hidden and both bound labels have the normal colour; for a
    bound that is a NaN the icon is hidden whatever the current value, and
    the label of that bound has the normal colour. *)
Theorem nan_hides_icon_and_flags_nothing (aCurrent : double) (aLabel : wxString)
    (p : STATUS_MIN_MAX_POPUP) :
  (m_icon (SetCurrent S754_nan aLabel p) = false
   /\ foreground (m_minText (SetCurrent S754_nan aLabel p)) = normal_colour
   /\ foreground (m_maxText (SetCurrent S754_nan aLabel p)) = normal_colour)
  /\ (m_min p = S754_nan ->
      m_icon (SetCurrent aCurrent aLabel p) = false
      /\ foreground (m_minText (SetCurrent aCurrent aLabel p)) = normal_colour)
  /\ (m_max p = S754_nan ->
      m_icon (SetCurrent aCurrent aLabel p) = false
      /\ foreground (m_maxText (SetCurrent aCurrent aLabel p)) = normal_colour).
Proof.
  rewrite !SetCurrent_icon, !SetCurrent_min_colour, !SetCurrent_max_colour.
  split; [|split].
  - repeat split.
  - intros ->. unfold ge, lt.
    assert (E : SFcompare aCurrent S754_nan = None) by (apply SFcompare_None; now right).
    rewrite E. split; reflexivity.
  - intros ->. unfold le, gt.
    assert (E : SFcompare aCurrent S754_nan = None) by (apply SFcompare_None; now right).
    rewrite E. split; [apply andb_false_r | reflexivity].
Qed.

(** X4: With a range written the wrong way round ([max < min]) no current value
    is in range: [SetCurrent] always hides the icon. *)
Theorem inverted_range_never_shows_icon (aCurrent : double) (aLabel : wxString)
    (p : STATUS_MIN_MAX_POPUP) :
  lt (m_max p) (m_min p) = true ->
  m_icon (SetCurrent aCurrent aLabel p) = false.
Proof.
  intros Hinv. rewrite SetCurrent_icon, ge_le.
  destruct (le (m_min p) aCurrent) eqn:E1; [|reflexivity].
  destruct (le aCurrent (m_max p)) eqn:E2; [|reflexivity].
  pose proof (le_trans _ _ _ E1 E2) as E.
  pose proof (lt_le_trans _ _ _ Hinv E) as Habs.
  rewrite lt_irrefl in Habs. discriminate.
Qed.

(** X5: With [min <= max], [SetCurrent] never flags both bounds at once: one of
    the two bound labels has the normal colour. *)
Theorem ordered_range_flags_one_bound (aCurrent : double) (aLabel : wxString)
    (p : STATUS_MIN_MAX_POPUP) :
  le (m_min p) (m_max p) = true ->
  ~ (lt aCurrent (m_min p) = true /\ gt aCurrent (m_max p) = true)
  /\ (foreground (m_minText (SetCurrent aCurrent aLabel p)) = normal_colour
      \/ foreground (m_maxText (SetCurrent aCurrent aLabel p)) = normal_colour).
Proof.
  intros Hord.
  assert (Hnot : ~ (lt aCurrent (m_min p) = true /\ gt aCurrent (m_max p) = true)).
  { intros [Hlo Hhi]. rewrite gt_lt in Hhi.
    pose proof (lt_le_trans _ _ _ Hlo Hord) as Hlt.
    pose proof (lt_le_trans _ _ _ Hhi (lt_le _ _ Hlt)) as Habs.
    rewrite lt_irrefl in Habs. discriminate. }
  split; [exact Hnot|].
  rewrite SetCurrent_min_colour, SetCurrent_max_colour.
  destruct (lt aCurrent (m_min p)); [|now left].
  destruct (gt aCurrent (m_max p)); [|now right].
  exfalso. apply Hnot. split; reflexivity.
Qed.

(** X6: Whatever happens to a min/max popup, the texts of its two bound labels
    are the formatted values of the bounds it holds, except before the first
    [SetMinMax]: then the bounds are 0.0 and 0.0 and the two texts are
    empty. *)
Theorem bound_texts_follow_bounds (aFrame : EDA_DRAW_FRAME) (p : STATUS_MIN_MAX_POPUP) :
  min_max_reachable aFrame p ->
  (label (m_minText p) = MessageTextFromValue (m_min p) false
   /\ label (m_maxText p) = MessageTextFromValue (m_max p) false)
  \/ (m_min p = d0_0 /\ m_max p = d0_0
      /\ label (m_minText p) = EmptyString /\ label (m_maxText p) = EmptyString).
Proof.
  induction 1 as [ | p e p' Hp IH Hstep].
  - right. repeat split.
  - destruct Hstep as [p aMin aMax | p aCurrent aLabel | p e b' Hbase].
    + left. split; reflexivity.
    + destruct (SetCurrent_keeps_bounds aCurrent aLabel p) as [-> ->].
      destruct (SetCurrent_bound_texts aCurrent aLabel p) as [-> ->].
      exact IH.
    + exact IH.
Qed.

(** X7: Nothing that happens to a min/max popup changes the background colour of
    its window, which no code of the popup ever sets: the colour of a flagged
    bound label is always the one that contrasts with the default background
    of a window, whatever the colour of the panel the label lies on. *)
Theorem flagged_colour_never_changes (aFrame : EDA_DRAW_FRAME)
    (p : STATUS_MIN_MAX_POPUP) (aCurrent : double) (aLabel : wxString) :
  min_max_reachable aFrame p ->
  (lt aCurrent (m_min p) = true ->
   foreground (m_minText (SetCurrent aCurrent aLabel p)) = warning_colour DefaultBackground)
  /\ (gt aCurrent (m_max p) = true ->
      foreground (m_maxText (SetCurrent aCurrent aLabel p)) = warning_colour DefaultBackground).
Proof.
  intros Hp. destruct (min_max_reachable_window aFrame p Hp) as [_ Hbg].
  rewrite SetCurrent_min_colour, SetCurrent_max_colour.
  unfold GetBackgroundColour. rewrite Hbg.
  split; intros ->; reflexivity.
Qed.

(** X8: Whatever happens to a min/max popup, its parent stays the frame it was
    made for, so a key event forwarded from it always reaches the canvas of
    that frame, as a [wxEVT_CHAR] event. *)
Theorem min_max_popup_keys_reach_canvas (aFrame : EDA_DRAW_FRAME)
    (p : STATUS_MIN_MAX_POPUP) (aEvent : wxKeyEvent) :
  min_max_reachable aFrame p ->
  onCharHook aEvent (base p)
  = Some (Canvas_OnEvent (GetCanvas aFrame) (SetEventType wxEVT_CHAR aEvent)).
Proof.
  intros Hp. destruct (min_max_reachable_window aFrame p Hp) as [Hparent _].
  unfold onCharHook. rewrite Hparent. reflexivity.
Qed.

(** X9: [SetCurrent] leaves the window with the size that the sizer gives the
    panel for the texts now shown; [SetMinMax] changes two of these texts and
    leaves the sizes of the panel and of the window as they were. *)
Theorem SetCurrent_fits_SetMinMax_does_not (aCurrent aMin aMax : double)
    (aLabel : wxString) (p : STATUS_MIN_MAX_POPUP) :
  (clientSize (base (SetCurrent aCurrent aLabel p))
   = sizer_Fit (laid_out (SetCurrent aCurrent aLabel p))
   /\ panel_size (m_panel (base (SetCurrent aCurrent aLabel p)))
      = sizer_Fit (laid_out (SetCurrent aCurrent aLabel p)))
  /\ (clientSize (base (SetMinMax aMin aMax p)) = clientSize (base p)
      /\ panel_size (m_panel (base (SetMinMax aMin aMax p))) = panel_size (m_panel (base p))
      /\ laid_out (SetMinMax aMin aMax p)
         = [label (m_currentLabel p); label (m_currentText p);
            translate "min"; MessageTextFromValue aMin false;
            translate "max"; MessageTextFromValue aMax false]).
Proof.
  split; [|repeat split].
  unfold SetCurrent. destruct (ToHSL _) as [[bg_h bg_s] bg_l]. split; reflexivity.
Qed.

End MinMaxHistories.

(** ** More on the popup base and the text popup *)

Section PopupHistories.

Context `{Collaborators}.

(** X10: Forwarding a key event fails only on a popup without a parent window; in
    every other case the event is dispatched with its key code, and with the
    type [wxEVT_CHAR] whatever its type was. *)
Theorem onCharHook_fails_iff_no_parent (aEvent : wxKeyEvent) (p : STATUS_POPUP) :
  (onCharHook aEvent p = None <-> parent p = None)
  /\ (forall d, onCharHook aEvent p = Some d ->
        ev_type (dispatched_event d) = wxEVT_CHAR
        /\ ev_keycode (dispatched_event d) = ev_keycode aEvent).
Proof.
  unfold onCharHook. destruct (parent p) as [[f | h] | ]; simpl.
  - split; [split; discriminate|]. intros d [= <-]. split; reflexivity.
  - split; [split; discriminate|]. intros d [= <-]. split; reflexivity.
  - split; [split; reflexivity|]. discriminate.
Qed.

(** X11: [Popup], [Expire] and [Move] act on different parts of the popup: showing
    and arming can be done in either order, a move can come before or after
    them, of two moves the last one counts, and showing twice is showing
    once. *)
Theorem Popup_Expire_Move_compose (d : Z) (pt pt' : wxPoint) (p : STATUS_POPUP) :
  Popup (Expire d p) = PopupFor d p
  /\ Move_wxPoint pt (PopupFor d p) = PopupFor d (Move_wxPoint pt p)
  /\ Move_wxPoint pt' (Move_wxPoint pt p) = Move_wxPoint pt' p
  /\ Popup (Popup p) = Popup p
  /\ onExpire (Move_wxPoint pt p) = Move_wxPoint pt (onExpire p).
Proof. repeat split. Qed.

(** X12: A popup that is shown becomes hidden only by [Hide] or by a notification
    of the expiry timer, and a hidden one becomes shown only by [Popup] or
    [PopupFor]: moving, arming and the passing of time leave the visibility
    alone. *)
Theorem visibility_changes_only_by (p p' : STATUS_POPUP) (e : event) :
  step p e p' ->
  (shown p = true -> shown p' = false ->
   e = Call_Hide \/ exists id, e = TimerNotify id)
  /\ (shown p = false -> shown p' = true ->
      e = Call_Popup \/ exists aMsecs, e = Call_PopupFor aMsecs).
Proof.
  intros Hstep.
  destruct Hstep as [p | p ms | p ms | p v | p pt | p
                     | p dt Hdt Hdue | p id left Hin Hleft]; simpl;
    split; intros Hbefore Hafter; try congruence.
  all: solve [ now left | right; eexists; reflexivity ].
Qed.

Lemma run_unarmed (p p' : STATUS_POPUP) (es : list event) :
  run p es p' ->
  pending (m_expireTimer p) = [] ->
  forallb (fun e => negb (arms e)) es = true ->
  pending (m_expireTimer p') = [] /\ forall id, ~ In (TimerNotify id) es.
Proof.
  induction 1 as [p | p e p' es p'' Hstep Hrun IH]; intros Hidle Hes.
  - split; [assumption | intros id []].
  - simpl in Hes. apply andb_true_iff in Hes. destruct Hes as [He Hes].
    destruct Hstep as [p | p ms | p ms | p v | p pt | p
                       | p dt Hdt Hdue | p id left Hin Hleft];
      try discriminate He;
      try (destruct (IH Hidle Hes) as [IH1 IH2]; split; [exact IH1|];
           intros id [E | Hin]; [discriminate E | exact (IH2 id Hin)]).
    + assert (Hidle' : pending (m_expireTimer (with_timer (countdown dt) p)) = [])
        by (simpl; now rewrite Hidle).
      destruct (IH Hidle' Hes) as [IH1 IH2]. split; [exact IH1|].
      intros id [E | Hin]; [discriminate E | exact (IH2 id Hin)].
    + rewrite Hidle in Hin. destruct Hin.
Qed.

(** X13: The timer of a new popup is not running, and only [Expire] and
    [PopupFor] start it: along a history without these two calls no
    notification of the timer is ever delivered, and none is pending at its
    end, so a popup shown with [Popup] stays until it is hidden by a call. *)
Theorem never_armed_never_expires (aParent : option wxWindow) (es : list event)
    (p : STATUS_POPUP) :
  run (new_STATUS_POPUP aParent) es p ->
  forallb (fun e => negb (arms e)) es = true ->
  pending (m_expireTimer p) = []
  /\ (forall id, ~ In (TimerNotify id) es)
  /\ (forall id p', ~ step p (TimerNotify id) p').
Proof.
  intros Hrun Hes.
  destruct (run_unarmed _ _ _ Hrun eq_refl Hes) as [Hidle Hnone].
  split; [exact Hidle|]. split; [exact Hnone|].
  intros id p' Hstep.
  inversion Hstep as [ | | | | | | | q i left Hin Hleft]; subst.
  rewrite Hidle in Hin. destruct Hin.
Qed.

(** X14: On a text popup the text and its colour are independent: [SetText] and
    [SetTextColor] can be called in either order, of two texts the last one
    counts, only [SetText] resizes the window, and it resizes it to what the
    sizer gives the panel for the new text. *)
Theorem SetText_SetTextColor_independent (t t' : wxString) (c : wxColour)
    (p : STATUS_TEXT_POPUP) :
  SetText t (SetTextColor c p) = SetTextColor c (SetText t p)
  /\ SetText t' (SetText t p) = SetText t' p
  /\ clientSize (text_base (SetText t p)) = sizer_Fit [t]
  /\ panel_size (m_panel (text_base (SetText t p))) = sizer_Fit [t]
  /\ text_base (SetTextColor c p) = text_base p.
Proof. repeat split. Qed.

End PopupHistories.

(** ** The properties at work on the sample collaborators *)

Local Open Scope string_scope.

Lemma sample_armed_reachable : reachable sample_armed.
Proof.
  unfold sample_armed.
  eapply reachable_step; [eapply reachable_step; [apply reachable_new|]|];
    constructor.
Qed.

(** The scenario of the specification: range [0, 10]. *)
Example scenario_in_range :
  let p := SetCurrent d5 "clearance" sample_popup in
  m_icon p = true
  /\ foreground (m_minText p) = sample_black
  /\ foreground (m_maxText p) = sample_black.
Proof. repeat split. Qed.

Example scenario_above_range :
  let p := SetCurrent d15 "clearance" sample_popup in
  m_icon p = false
  /\ foreground (m_minText p) = sample_black
  /\ foreground (m_maxText p) = sample_dark_red.
Proof. repeat split. Qed.

(** A NaN is in no range: the icon is hidden and no label is coloured. *)
Example scenario_nan :
  let p := SetCurrent S754_nan "clearance" sample_popup in
  m_icon p = false
  /\ foreground (m_minText p) = sample_black
  /\ foreground (m_maxText p) = sample_black.
Proof. repeat split. Qed.

(** After the range has moved away from the current value the icon is still
    the one of the last [SetCurrent]. *)
Example scenario_stale_icon :
  let p := SetMinMax d6 d10 (SetCurrent d5 "clearance" sample_popup) in
  m_icon p = true /\ le (m_min p) d5 = false.
Proof. repeat split. Qed.

(** Half a second after [PopupFor( 500 )] the notification hides the popup. *)
Example scenario_expiry :
  let p := PopupFor 500 (new_STATUS_POPUP None) in
  shown p = true
  /\ step p (Elapse 500) (with_timer (countdown 500) p)
  /\ step (with_timer (countdown 500) p) (TimerNotify 1)
       (onExpire (with_timer (notified 1) (with_timer (countdown 500) p)))
  /\ shown (onExpire (with_timer (notified 1) (with_timer (countdown 500) p))) = false.
Proof.
  simpl. split; [reflexivity|]. split; [|split; [|reflexivity]].
  - apply step_Elapse; [lia|]. simpl. intros id left [E | []].
    injection E as <- <-. lia.
  - apply (step_TimerNotify _ 1%nat 0); [left; reflexivity | lia].
Qed.

Lemma SetCurrent_bound_label_colours_witness :
  eq d10 (m_max sample_popup) = true
  /\ foreground (m_maxText (SetCurrent d10 "clearance" sample_popup)) = normal_colour
  /\ (foreground (m_minText (SetCurrent d10 "clearance" sample_popup))
      = warning_colour (GetBackgroundColour (base sample_popup))
      <-> lt d10 (m_min sample_popup) = true).
Proof.
  destruct (SetCurrent_bound_label_colours d10 "clearance" sample_popup)
    as (_ & _ & _ & Hmax & _ & Hexact).
  split; [reflexivity|]. split.
  - apply Hmax. reflexivity.
  - apply Hexact. discriminate.
Defined.

Lemma SetCurrent_warning_colour_contrast_witness :
  gt d15 (m_max sample_popup) = true
  /\ foreground (m_maxText (SetCurrent d15 "clearance" sample_popup))
     = warning_colour (GetBackgroundColour (base sample_popup))
  /\ warning_colour (GetBackgroundColour (base sample_popup))
     = ToColour (FromHSL COLOR4D_default d0_0 d1_0 d0_3).
Proof.
  destruct (SetCurrent_warning_colour_contrast d15 "clearance" sample_popup)
    as (_ & Hmax & _ & Hdark & _).
  split; [reflexivity|]. split.
  - apply Hmax. reflexivity.
  - apply Hdark. reflexivity.
Defined.

Lemma SetMinMax_changes_only_bounds_witness :
  m_icon (SetMinMax d6 d10 (SetCurrent d5 "clearance" sample_popup))
  = ge d5 (m_min sample_popup) && le d5 (m_max sample_popup).
Proof.
  destruct (SetMinMax_changes_only_bounds d6 d10 (SetCurrent d5 "clearance" sample_popup))
    as (_ & _ & Hlast).
  apply (Hlast d5 "clearance" sample_popup). reflexivity.
Defined.

Lemma sample_popup_reachable : min_max_reachable sample_frame sample_popup.
Proof.
  unfold sample_popup. eapply min_max_next; [apply min_max_new | constructor].
Qed.

Lemma sample_shown_in_use : in_use (base sample_shown).
Proof.
  apply (in_use_min_max sample_frame). unfold sample_shown.
  eapply min_max_next; [eapply min_max_next; [apply sample_popup_reachable|]|].
  - apply (step_base sample_popup (Call_PopupFor 500)). constructor.
  - constructor.
Qed.

Lemma Expire_replaces_pending_expiry_witness :
  in_use (base sample_shown)
  /\ pending (m_expireTimer (base sample_shown)) = [(1%nat, 500)]
  /\ (List.length (pending (m_expireTimer (base sample_shown))) <= 1)%nat
  /\ (forall p', ~ step (Expire 100 (base sample_shown)) (TimerNotify 1) p').
Proof.
  destruct (Expire_replaces_pending_expiry (base sample_shown) sample_shown_in_use)
    as (Hone & _ & Hold & _).
  split; [exact sample_shown_in_use|]. split; [reflexivity|]. split; [exact Hone|].
  intros p'. apply (Hold 100 1%nat 500 p'). left. reflexivity.
Defined.

Lemma new_popup_icon_iff_zero_witness :
  let es := [Call_SetCurrent d5 "clearance"; On_base Call_Popup] in
  let p := with_base (Popup (base (SetCurrent d5 "clearance"
                                     (new_STATUS_MIN_MAX_POPUP sample_frame))))
             (SetCurrent d5 "clearance" (new_STATUS_MIN_MAX_POPUP sample_frame)) in
  min_max_run (new_STATUS_MIN_MAX_POPUP sample_frame) es p
  /\ forallb (fun e => negb (sets_range e)) es = true
  /\ m_icon (SetCurrent (S754_zero true) "clearance" p) = true
  /\ m_icon (SetCurrent d5 "clearance" p) = false.
Proof.
  intros es p.
  assert (Hrun : min_max_run (new_STATUS_MIN_MAX_POPUP sample_frame) es p).
  { eapply min_max_run_cons; [apply step_SetCurrent|].
    eapply min_max_run_cons; [|apply min_max_run_nil].
    apply (step_base _ Call_Popup). constructor. }
  split; [exact Hrun|]. split; [reflexivity|].
  destruct (new_popup_icon_iff_zero sample_frame es p (S754_zero true) "clearance"
              Hrun eq_refl) as (_ & _ & Hzero & _).
  destruct (new_popup_icon_iff_zero sample_frame es p d5 "clearance"
              Hrun eq_refl) as (_ & _ & Hfive & _).
  split.
  - apply Hzero. reflexivity.
  - apply not_true_is_false. intros E.
    apply (proj1 Hfive) in E. discriminate E.
Defined.

Lemma onCharHook_forwards_witness :
  parent sample_armed = Some (PlainWindow 7)
  /\ onCharHook sample_event sample_armed
     = Some (Handler_ProcessEvent 7 {| ev_type := wxEVT_CHAR; ev_keycode := 27 |}).
Proof.
  split; [reflexivity|].
  destruct (onCharHook_forwards (PlainWindow 7) sample_event sample_armed eq_refl)
    as (_ & Hplain & _).
  apply Hplain. reflexivity.
Defined.

Lemma sample_inverted_reachable : min_max_reachable sample_frame sample_inverted.
Proof.
  unfold sample_inverted. eapply min_max_next; [apply min_max_new | constructor].
Qed.

(** With the range [10, 0] the value 5 has both bounds flagged. *)
Example scenario_inverted_range :
  let p := SetCurrent d5 "clearance" sample_inverted in
  m_icon p = false
  /\ foreground (m_minText p) = sample_dark_red
  /\ foreground (m_maxText p) = sample_dark_red.
Proof. repeat split. Qed.

Lemma icon_hidden_iff_bound_flagged_witness :
  m_icon (SetCurrent d15 "clearance" sample_popup)
  = negb (lt d15 (m_min sample_popup) || gt d15 (m_max sample_popup)).
Proof.
  apply (icon_hidden_iff_bound_flagged d15 "clearance" sample_popup); discriminate.
Defined.

Lemma nan_hides_icon_and_flags_nothing_witness :
  let p := SetMinMax S754_nan d10 (new_STATUS_MIN_MAX_POPUP sample_frame) in
  m_min p = S754_nan
  /\ m_icon (SetCurrent d5 "clearance" p) = false
  /\ foreground (m_minText (SetCurrent d5 "clearance" p)) = normal_colour.
Proof.
  intros p. split; [reflexivity|].
  destruct (nan_hides_icon_and_flags_nothing d5 "clearance" p) as (_ & Hmin & _).
  apply Hmin. reflexivity.
Defined.

Lemma inverted_range_never_shows_icon_witness :
  lt (m_max sample_inverted) (m_min sample_inverted) = true
  /\ m_icon (SetCurrent d5 "clearance" sample_inverted) = false.
Proof.
  split; [reflexivity|].
  apply (inverted_range_never_shows_icon d5 "clearance" sample_inverted). reflexivity.
Defined.

Lemma ordered_range_flags_one_bound_witness :
  le (m_min sample_popup) (m_max sample_popup) = true
  /\ ~ (lt d15 (m_min sample_popup) = true /\ gt d15 (m_max sample_popup) = true).
Proof.
  split; [reflexivity|].
  apply (ordered_range_flags_one_bound d15 "clearance" sample_popup). reflexivity.
Defined.

Lemma bound_texts_follow_bounds_witness :
  min_max_reachable sample_frame sample_popup
  /\ ((label (m_minText sample_popup) = MessageTextFromValue (m_min sample_popup) false
       /\ label (m_maxText sample_popup) = MessageTextFromValue (m_max sample_popup) false)
      \/ (m_min sample_popup = d0_0 /\ m_max sample_popup = d0_0
          /\ label (m_minText sample_popup) = EmptyString
          /\ label (m_maxText sample_popup) = EmptyString)).
Proof.
  split; [exact sample_popup_reachable|].
  exact (bound_texts_follow_bounds sample_frame sample_popup sample_popup_reachable).
Defined.

Lemma flagged_colour_never_changes_witness :
  min_max_reachable sample_frame sample_popup
  /\ gt d15 (m_max sample_popup) = true
  /\ foreground (m_maxText (SetCurrent d15 "clearance" sample_popup))
     = warning_colour DefaultBackground.
Proof.
  split; [exact sample_popup_reachable|]. split; [reflexivity|].
  destruct (flagged_colour_never_changes sample_frame sample_popup d15 "clearance"
              sample_popup_reachable) as [_ Hmax].
  apply Hmax. reflexivity.
Defined.

Lemma min_max_popup_keys_reach_canvas_witness :
  min_max_reachable sample_frame sample_inverted
  /\ onCharHook sample_event (base sample_inverted)
     = Some (Canvas_OnEvent 1 {| ev_type := wxEVT_CHAR; ev_keycode := 27 |}).
Proof.
  split; [exact sample_inverted_reachable|].
  exact (min_max_popup_keys_reach_canvas sample_frame sample_inverted sample_event
           sample_inverted_reachable).
Defined.

Lemma onCharHook_fails_iff_no_parent_witness :
  parent (new_STATUS_POPUP None) = None
  /\ onCharHook sample_event (new_STATUS_POPUP None) = None
  /\ ev_type (dispatched_event
                (Handler_ProcessEvent 7 (SetEventType wxEVT_CHAR sample_event)))
     = wxEVT_CHAR.
Proof.
  split; [reflexivity|]. split.
  - apply (onCharHook_fails_iff_no_parent sample_event (new_STATUS_POPUP None)).
    reflexivity.
  - apply (onCharHook_fails_iff_no_parent sample_event sample_armed). reflexivity.
Defined.

Lemma visibility_changes_only_by_witness :
  step sample_armed Call_Hide (Hide sample_armed)
  /\ shown sample_armed = true
  /\ shown (Hide sample_armed) = false
  /\ (Call_Hide = Call_Hide \/ exists id, Call_Hide = TimerNotify id).
Proof.
  split; [constructor|]. split; [reflexivity|]. split; [reflexivity|].
  apply (visibility_changes_only_by sample_armed (Hide sample_armed) Call_Hide);
    [constructor | reflexivity | reflexivity].
Defined.

Lemma never_armed_never_expires_witness :
  let es := [Call_Popup; Call_Move_wxPoint {| pt_x := 30; pt_y := 40 |}; Elapse 1000] in
  let p := Move_wxPoint {| pt_x := 30; pt_y := 40 |} (Popup (new_STATUS_POPUP None)) in
  run (new_STATUS_POPUP None) es (with_timer (countdown 1000) p)
  /\ forallb (fun e => negb (arms e)) es = true
  /\ pending (m_expireTimer (with_timer (countdown 1000) p)) = []
  /\ shown (with_timer (countdown 1000) p) = true.
Proof.
  intros es p.
  assert (Hrun : run (new_STATUS_POPUP None) es (with_timer (countdown 1000) p)).
  { eapply run_cons; [apply step_Popup|].
    eapply run_cons; [apply step_Move_wxPoint|].
    eapply run_cons; [|apply run_nil].
    apply step_Elapse; [lia | intros id left []]. }
  split; [exact Hrun|]. split; [reflexivity|]. split; [|reflexivity].
  apply (never_armed_never_expires None es _ Hrun). reflexivity.
Defined.
